(** * FindTail, shelters page: fetch, enrich and filter

    A shallow embedding of [src/app/shelters/page.tsx]: the values the page
    handles (JavaScript scalars, rows of the backend), the [fetchShelters]
    procedure over the component's state, and the [filteredShelters]
    computation, followed by the properties proved of them.

    Strings are [String.string]. [String.prototype.toLowerCase] is a method
    of the language, not of this repository: the development is stated over
    any implementation of it ([ToLowerCase]), and the examples run on text
    whose letters are ASCII. Numbers are IEEE 754 binary64 values
    ([SpecFloat.spec_float] at precision 53, [emax] 1024), the JavaScript
    Number type. *)

From Stdlib Require Import ZArith List Bool Ascii String Lia SpecFloat.
Import ListNotations.

Local Open Scope list_scope.
Local Open Scope string_scope.

(** ** JavaScript numbers *)

Module JsNumber.

Definition number := spec_float.

Definition prec : Z := 53.
Definition emax : Z := 1024.

Definition NaN : number := S754_nan.
Definition zero : number := S754_zero false.
Definition Infinity (neg : bool) : number := S754_infinity neg.

(** The Number value of the integer [m]. *)
Definition of_Z (m : Z) : number := binary_normalize prec emax m 0 false.

(** The Number value (round to nearest, ties to even) of
    [(-1)^neg * m * 10^e10]. *)
Definition of_decimal (neg : bool) (m : N) (e10 : Z) : number :=
  match m with
  | N0 => S754_zero neg
  | Npos p =>
      let num := (p * Z.to_pos (10 ^ Z.max e10 0))%positive in
      let den := Z.to_pos (10 ^ Z.max (- e10) 0) in
      SFdiv prec emax (S754_finite neg num 0) (S754_finite false den 0)
  end.

Definition isNaN (x : number) : bool :=
  match x with S754_nan => true | _ => false end.

(** [x < y] of the language: [None] stands for undefined (a NaN operand). *)
Definition lessThan (x y : number) : option bool :=
  match SFcompare x y with
  | None => None
  | Some Lt => Some true
  | Some _ => Some false
  end.

(** [x >= y]: false when [x < y] is true or undefined. *)
Definition ge (x y : number) : bool :=
  match lessThan x y with
  | Some false => true
  | _ => false
  end.

(** [0 < x]. *)
Definition positive (x : number) : bool := SFltb zero x.

(** ToBoolean on numbers: [+0], [-0] and [NaN] are falsy. *)
Definition truthy (x : number) : bool :=
  match x with
  | S754_zero _ | S754_nan => false
  | _ => true
  end.

End JsNumber.

(** ** JavaScript strings *)

Module JsString.

Definition is_upper (c : ascii) : bool :=
  let n := nat_of_ascii c in (65 <=? n)%nat && (n <=? 90)%nat.

Definition lower_ascii (c : ascii) : ascii :=
  if is_upper c then ascii_of_nat (nat_of_ascii c + 32) else c.

(** [String.prototype.toLowerCase], as the language provides it. The page
    only calls it; the one fact about it that the proofs use is that the
    empty string has no letter to lower. *)
Class ToLowerCase : Type := {
  toLowerCase : string -> string;
  toLowerCase_empty : toLowerCase "" = ""
}.

(** The method on text whose letters are ASCII: [A] to [Z] are lowered and
    every other character is kept. *)
Fixpoint ascii_toLowerCase (s : string) : string :=
  match s with
  | EmptyString => EmptyString
  | String c s' => String (lower_ascii c) (ascii_toLowerCase s')
  end.

#[export] Instance ascii_lowering : ToLowerCase := {|
  toLowerCase := ascii_toLowerCase;
  toLowerCase_empty := eq_refl
|}.

(** [String.prototype.includes] with the default position 0. *)
Fixpoint includes (s searchString : string) : bool :=
  match s with
  | EmptyString => prefix searchString EmptyString
  | String _ s' => prefix searchString s || includes s' searchString
  end.

(** *** StringToNumber, the conversion behind [Number(s)] *)

(** The white space the conversion strips, within ASCII: tab, line feed,
    vertical tab, form feed, carriage return and space. *)
Definition isWhiteSpace (c : ascii) : bool :=
  let n := nat_of_ascii c in
  ((9 <=? n)%nat && (n <=? 13)%nat) || (n =? 32)%nat.

Fixpoint trimStart (l : list ascii) : list ascii :=
  match l with
  | c :: l' => if isWhiteSpace c then trimStart l' else l
  | [] => []
  end.

Definition trim (l : list ascii) : list ascii :=
  rev (trimStart (rev (trimStart l))).

(** The value of a digit in a base up to 16, if it is one. *)
Definition digit_value (base : N) (c : ascii) : option N :=
  let n := N_of_ascii c in
  let v :=
    if (48 <=? n)%N && (n <=? 57)%N then Some (n - 48)%N
    else if (97 <=? n)%N && (n <=? 102)%N then Some (n - 87)%N
    else if (65 <=? n)%N && (n <=? 70)%N then Some (n - 55)%N
    else None in
  match v with
  | Some d => if (d <? base)%N then Some d else None
  | None => None
  end.

(** Reads the longest run of digits: their number, their value after [acc],
    and the rest of the input. *)
Fixpoint read_digits (base : N) (l : list ascii) (count : nat) (acc : N)
  : nat * N * list ascii :=
  match l with
  | c :: l' =>
      match digit_value base c with
      | Some d => read_digits base l' (S count) (acc * base + d)%N
      | None => (count, acc, l)
      end
  | [] => (count, acc, [])
  end.

(** A non-decimal integer literal: digits only, at least one. *)
Definition radix_literal (base : N) (l : list ascii) : JsNumber.number :=
  match read_digits base l 0 0 with
  | (S _, v, []) => JsNumber.of_Z (Z.of_N v)
  | _ => JsNumber.NaN
  end.

(** The optional exponent part: [e] or [E], an optional sign, digits. *)
Definition exponent_part (l : list ascii) : option Z :=
  match l with
  | [] => Some 0%Z
  | c :: l' =>
      if (Ascii.eqb c "e" || Ascii.eqb c "E")%char then
        let '(neg, l'') :=
          match l' with
          | "-"%char :: r => (true, r)
          | "+"%char :: r => (false, r)
          | _ => (false, l')
          end in
        match read_digits 10 l'' 0 0 with
        | (S _, v, []) => Some (if neg then - Z.of_N v else Z.of_N v)%Z
        | _ => None
        end
      else None
  end.

(** An unsigned decimal literal: [Infinity], or digits with an optional
    fraction and exponent, at least one digit around the point. *)
Definition unsigned_decimal (neg : bool) (l : list ascii) : JsNumber.number :=
  if list_eq_dec ascii_dec l (list_ascii_of_string "Infinity")
  then JsNumber.Infinity neg
  else
    let '(n1, v1, r1) := read_digits 10 l 0 0 in
    let '(n2, v2, r2) :=
      match r1 with
      | "."%char :: r => read_digits 10 r 0 v1
      | _ => (O, v1, r1)
      end in
    match (n1 + n2)%nat with
    | O => JsNumber.NaN
    | S _ =>
        match exponent_part r2 with
        | Some e => JsNumber.of_decimal neg v2 (e - Z.of_nat n2)
        | None => JsNumber.NaN
        end
    end.

Definition StringToNumber (s : string) : JsNumber.number :=
  match trim (list_ascii_of_string s) with
  | [] => JsNumber.zero
  | "0"%char :: x :: r =>
      if (Ascii.eqb x "x" || Ascii.eqb x "X")%char then radix_literal 16 r
      else if (Ascii.eqb x "o" || Ascii.eqb x "O")%char then radix_literal 8 r
      else if (Ascii.eqb x "b" || Ascii.eqb x "B")%char then radix_literal 2 r
      else unsigned_decimal false ("0"%char :: x :: r)
  | "-"%char :: r => unsigned_decimal true r
  | "+"%char :: r => unsigned_decimal false r
  | l => unsigned_decimal false l
  end.

End JsString.

Import JsNumber JsString.

(** ** Values, rows and thrown errors *)

(** The scalar values a row of the backend can hold in a column; [VUndefined]
    is what reading a missing key gives. *)
Inductive value : Type :=
| VUndefined
| VNull
| VBool (b : bool)
| VNum (n : number)
| VStr (s : string).

Definition ToBoolean (v : value) : bool :=
  match v with
  | VUndefined | VNull => false
  | VBool b => b
  | VNum n => JsNumber.truthy n
  | VStr s => negb (String.eqb s "")
  end.

Definition ToNumber (v : value) : number :=
  match v with
  | VUndefined => NaN
  | VNull => zero
  | VBool b => if b then of_Z 1 else zero
  | VNum n => n
  | VStr s => StringToNumber s
  end.

(** [a || b]. *)
Definition or_else (a b : value) : value := if ToBoolean a then a else b.

(** [a ?? b]. *)
Definition nullish (a b : value) : value :=
  match a with
  | VUndefined | VNull => b
  | _ => a
  end.

(** [a === b]. *)
Definition strictEquals (a b : value) : bool :=
  match a, b with
  | VUndefined, VUndefined => true
  | VNull, VNull => true
  | VBool x, VBool y => Bool.eqb x y
  | VNum x, VNum y => SFeqb x y
  | VStr x, VStr y => String.eqb x y
  | _, _ => false
  end.

(** [a >= n] with a Number on the right: the left operand is converted. *)
Definition greaterEqual (a : value) (n : number) : bool :=
  JsNumber.ge (ToNumber a) n.

Inductive exn : Type :=
| TypeError
| BackendError (message : string).

Inductive result (A : Type) : Type :=
| Ok (a : A)
| Throw (e : exn).

Arguments Ok {A} a.
Arguments Throw {A} e.

Definition bind {A B : Type} (m : result A) (k : A -> result B) : result B :=
  match m with
  | Ok a => k a
  | Throw e => Throw e
  end.

Declare Scope result_scope.
Delimit Scope result_scope with result.
Notation "x <- m ;; k" := (bind m (fun x => k))
  (at level 61, m at next level, right associativity) : result_scope.

(** [v.toLowerCase()]: only a string has the method. *)
Definition call_toLowerCase {L : ToLowerCase} (v : value) : result string :=
  match v with
  | VStr s => Ok (toLowerCase s)
  | _ => Throw TypeError
  end.

(** A row of [shelter_details]; the default object of the page leaves
    [profile_id] and [rating] out. *)
Module Details.
Record t : Type := make {
  profile_id : value;
  shelter_name : value;
  shelter_type : value;
  location : value;
  description : value;
  website : value;
  rating : value
}.

(** [{}]. *)
Definition empty : t :=
  make VUndefined VUndefined VUndefined VUndefined VUndefined VUndefined
       VUndefined.
End Details.

(** A row of [profiles]. *)
Record Profile : Type := mkProfile {
  id : value;
  full_name : value;
  address : value;
  user_type : value;
  created_at : value
}.

(** [{ ...profile, shelter_details, animals_count }]; [shelter_details] is
    [None] when the key is missing or null. *)
Record Shelter : Type := mkShelter {
  profile : Profile;
  shelter_details : option Details.t;
  animals_count : Z
}.

(** The [formData] state: the values of the four selects. *)
Module FormData.
Record t : Type := make {
  shelter_type : string;
  rating : string;
  free_places : string;
  location : string
}.

Definition initial : t := make "" "" "" "".
End FormData.

(** [!s] on a string. *)
Definition is_empty (s : string) : bool := String.eqb s "".

(** ** The filter *)

Section Filter.
Local Open Scope result_scope.

Context {L : ToLowerCase}.
Variable searchQuery : string.
Variable formData : FormData.t.

(** The callback given to [shelters.filter]. *)
Definition filterCallback (shelter : Shelter) : result bool :=
  let details :=
    match shelter_details shelter with
    | Some d => d
    | None => Details.empty
    end in
  let shelterName := or_else (Details.shelter_name details) (VStr "") in
  let shelterLocation := or_else (Details.location details) (VStr "") in
  let shelterType := or_else (Details.shelter_type details) (VStr "") in
  let shelterRating := nullish (Details.rating details) VNull in
  lowerName <- call_toLowerCase shelterName ;;
  let nameMatch := includes lowerName (toLowerCase searchQuery) in
  lowerLocation <- call_toLowerCase shelterLocation ;;
  let locationMatch := includes lowerLocation (toLowerCase searchQuery) in
  let typeMatch :=
    is_empty (FormData.shelter_type formData)
    || strictEquals shelterType (VStr (FormData.shelter_type formData)) in
  let ratingMatch :=
    is_empty (FormData.rating formData)
    || greaterEqual shelterRating
         (StringToNumber (FormData.rating formData)) in
  locationFilterMatch <-
    (if is_empty (FormData.location formData) then Ok true
     else
       lowerLocation' <- call_toLowerCase shelterLocation ;;
       Ok (includes lowerLocation'
             (toLowerCase (FormData.location formData)))) ;;
  Ok ((nameMatch || locationMatch)
      && typeMatch && ratingMatch && locationFilterMatch).

(** [Array.prototype.filter]: the callback runs on every element in order,
    and the first exception it throws ends the call. *)
Fixpoint array_filter {A : Type} (f : A -> result bool) (l : list A)
  : result (list A) :=
  match l with
  | [] => Ok []
  | x :: l' =>
      keep <- f x ;;
      rest <- array_filter f l' ;;
      Ok (if keep then x :: rest else rest)
  end.

Definition filteredShelters (shelters : list Shelter)
  : result (list Shelter) :=
  array_filter filterCallback shelters.

End Filter.

(** ** The backend and the component's state *)

(** What awaiting a query gives: the promise rejects, or it resolves to the
    [{ data, error }] object of the client. *)
Inductive response (A : Type) : Type :=
| Rejected (e : exn)
| Resolved (data : option A) (error : option exn).

Arguments Rejected {A} e.
Arguments Resolved {A} data error.

(** The three queries the page sends: the shelter profiles newest first, the
    detail row of a profile id, the rows of the animals of a shelter id that
    are not adopted. *)
Record Backend : Type := mkBackend {
  profiles_query : response (list Profile);
  shelter_details_query : value -> response Details.t;
  animals_query : value -> response (list value)
}.

(** The [useState] cells of [SheltersPage]. *)
Record PageState : Type := mkPageState {
  shelters : list Shelter;
  loading : bool;
  error : option string;
  searchQuery : string;
  initialized : bool;
  hydrated : bool;
  formData : FormData.t
}.

Definition initialState : PageState :=
  mkPageState [] true None "" false false FormData.initial.

Definition setShelters (v : list Shelter) (st : PageState) : PageState :=
  mkPageState v (loading st) (error st) (searchQuery st) (initialized st)
    (hydrated st) (formData st).

Definition setLoading (v : bool) (st : PageState) : PageState :=
  mkPageState (shelters st) v (error st) (searchQuery st) (initialized st)
    (hydrated st) (formData st).

Definition setError (v : option string) (st : PageState) : PageState :=
  mkPageState (shelters st) (loading st) v (searchQuery st) (initialized st)
    (hydrated st) (formData st).

Definition setSearchQuery (v : string) (st : PageState) : PageState :=
  mkPageState (shelters st) (loading st) (error st) v (initialized st)
    (hydrated st) (formData st).

Definition setInitialized (v : bool) (st : PageState) : PageState :=
  mkPageState (shelters st) (loading st) (error st) (searchQuery st) v
    (hydrated st) (formData st).

Definition setHydrated (v : bool) (st : PageState) : PageState :=
  mkPageState (shelters st) (loading st) (error st) (searchQuery st)
    (initialized st) v (formData st).

Definition setFormData (f : FormData.t -> FormData.t) (st : PageState)
  : PageState :=
  mkPageState (shelters st) (loading st) (error st) (searchQuery st)
    (initialized st) (hydrated st) (f (formData st)).

(** [{ ...prev, [name]: value }]; a key other than the four fields adds a
    property that nothing reads. *)
Definition handleChange (name value : string) (prev : FormData.t)
  : FormData.t :=
  if String.eqb name "shelter_type" then
    FormData.make value (FormData.rating prev) (FormData.free_places prev)
      (FormData.location prev)
  else if String.eqb name "rating" then
    FormData.make (FormData.shelter_type prev) value
      (FormData.free_places prev) (FormData.location prev)
  else if String.eqb name "free_places" then
    FormData.make (FormData.shelter_type prev) (FormData.rating prev) value
      (FormData.location prev)
  else if String.eqb name "location" then
    FormData.make (FormData.shelter_type prev) (FormData.rating prev)
      (FormData.free_places prev) value
  else prev.

(** ** Enriching one profile *)

(** [await] inside a [try]: a rejected promise throws. *)
Definition await {A : Type} (r : response A) : result (option A * option exn) :=
  match r with
  | Rejected e => Throw e
  | Resolved data err => Ok (data, err)
  end.

(** The object both branches of the callback fall back to. *)
Definition defaultDetails (profile : Profile) : Details.t :=
  Details.make VUndefined (full_name profile) (VStr "animal_shelter")
    (or_else (address profile) (VStr "Unknown")) (VStr "") (VStr "")
    VUndefined.

(** [animalCount?.length || 0]. *)
Definition count_of (animalCount : option (list value)) : Z :=
  match animalCount with
  | Some rows => Z.of_nat (List.length rows)
  | None => 0%Z
  end.

(** The async callback mapped over [profilesData]: its own [try]/[catch]
    makes it resolve in every case. *)
Definition withDetails (db : Backend) (profile : Profile) : Shelter :=
  match
    (detail <- await (shelter_details_query db (id profile)) ;;
     let shelterDetails := fst detail in
     animals <- await (animals_query db (id profile)) ;;
     let animalCount := fst animals in
     Ok (mkShelter profile
           (Some match shelterDetails with
                 | Some d => d
                 | None => defaultDetails profile
                 end)
           (count_of animalCount)))%result
  with
  | Ok shelter => shelter
  | Throw detailsError => mkShelter profile (Some (defaultDetails profile)) 0
  end.

(** ** fetchShelters *)

(** Statements of the component: they read and write the state cells and
    either complete with a value or throw. *)
Definition M (A : Type) : Type := PageState -> result A * PageState.

Definition ret {A : Type} (a : A) : M A := fun st => (Ok a, st).

Definition throw {A : Type} (e : exn) : M A := fun st => (Throw e, st).

Definition seq {A B : Type} (m : M A) (k : A -> M B) : M B :=
  fun st =>
    match m st with
    | (Ok a, st') => k a st'
    | (Throw e, st') => (Throw e, st')
    end.

Definition modify (f : PageState -> PageState) : M unit :=
  fun st => (Ok tt, f st).

Definition try_catch {A : Type} (body : M A) (handler : exn -> M A) : M A :=
  fun st =>
    match body st with
    | (Throw e, st') => handler e st'
    | done => done
    end.

Definition try_finally {A : Type} (body : M A) (finalizer : M unit) : M A :=
  fun st =>
    let '(r, st') := body st in
    match finalizer st' with
    | (Ok _, st'') => (r, st'')
    | (Throw e, st'') => (Throw e, st'')
    end.

Definition lift {A : Type} (r : result A) : M A := fun st => (r, st).

Declare Scope page_scope.
Delimit Scope page_scope with page.
Notation "x <- m ;; k" := (seq m (fun x => k))
  (at level 61, m at next level, right associativity) : page_scope.
Notation "m ;; k" := (seq m (fun _ => k))
  (at level 61, right associativity) : page_scope.

Definition load_failure : string :=
  "Failed to load shelters. Please try again.".

(** The body of [fetchShelters]. The console output and the detached call of
    [fixMissingShelterDetails], whose failure is caught on the spot, touch no
    state cell and are left out. [Promise.all] over callbacks that always
    resolve is the list of their results, in the order of [profilesData]. *)
Definition fetchShelters (db : Backend) : M unit :=
  (try_finally
     (try_catch
        (modify (setLoading true) ;;
         modify (setError None) ;;
         listing <- lift (await (profiles_query db)) ;;
         let '(profilesData, profilesError) := listing in
         match profilesError with
         | Some e => throw e
         | None =>
             match profilesData with
             | None | Some [] =>
                 modify (setShelters []) ;;
                 modify (setLoading false) ;;
                 modify (setInitialized true)
             | Some profilesData =>
                 let sheltersWithDetails := map (withDetails db) profilesData in
                 modify (setShelters sheltersWithDetails) ;;
                 modify (setInitialized true)
             end
         end)
        (fun err =>
           modify (setError (Some load_failure)) ;;
           modify (setInitialized true)))
     (modify (setLoading false)))%page.

(** ** The page as a transition system *)

(** The second effect: fetch once the component is hydrated and not yet
    initialized. *)
Definition fetchEffect (db : Backend) (st : PageState) : PageState :=
  if hydrated st && negb (initialized st) then snd (fetchShelters db st)
  else st.

Inductive step (db : Backend) : PageState -> PageState -> Prop :=
| step_hydrate st : step db st (setHydrated true st)
| step_fetch st : step db st (fetchEffect db st)
| step_search st q : step db st (setSearchQuery q st)
| step_select st name v : step db st (setFormData (handleChange name v) st).

Inductive reachable (db : Backend) : PageState -> Prop :=
| reach_init : reachable db initialState
| reach_step st st' : reachable db st -> step db st st' -> reachable db st'.

(** What the page lists: [filteredShelters] of the current render. *)
Definition displayed {L : ToLowerCase} (st : PageState)
  : result (list Shelter) :=
  filteredShelters (searchQuery st) (formData st) (shelters st).

(** ** The criteria in the words of the specification *)

(** Case-insensitive substring match: [needle], lowered, is a part of
    [hay], lowered. *)
Definition ci_substring {L : ToLowerCase} (needle hay : string) : Prop :=
  exists pre post, toLowerCase hay = pre ++ toLowerCase needle ++ post.

(** The detail object the filter reads, [{}] when there is none. *)
Definition details_of (s : Shelter) : Details.t :=
  match shelter_details s with
  | Some d => d
  | None => Details.empty
  end.

(** A field that holds text, or nothing. *)
Definition text_or_missing (v : value) : bool :=
  match v with
  | VUndefined | VNull | VStr _ => true
  | VBool _ | VNum _ => false
  end.

(** The text of such a field, empty when it is missing. *)
Definition text_of (v : value) : string :=
  match v with
  | VStr s => s
  | _ => ""
  end.

Definition name_of (s : Shelter) : string :=
  text_of (Details.shelter_name (details_of s)).

Definition location_of (s : Shelter) : string :=
  text_of (Details.location (details_of s)).

(** The name and the location of the shelter are text or missing. *)
Definition text_fields_ok (s : Shelter) : Prop :=
  text_or_missing (Details.shelter_name (details_of s)) = true
  /\ text_or_missing (Details.location (details_of s)) = true.

(** The detail record has no rating. *)
Definition unrated (s : Shelter) : Prop :=
  Details.rating (details_of s) = VUndefined
  \/ Details.rating (details_of s) = VNull.

(** A criterion binds only when its field of the form is not empty. *)
Definition when_active (criterion : string) (P : Prop) : Prop :=
  criterion <> "" -> P.

Definition query_criterion {L : ToLowerCase} (query : string) (s : Shelter)
  : Prop :=
  ci_substring query (name_of s) \/ ci_substring query (location_of s).

Definition type_criterion (wanted : string) (s : Shelter) : Prop :=
  Details.shelter_type (details_of s) = VStr wanted.

(** The rating, read as a number with a missing one as [null], is at least
    the selected minimum. *)
Definition rating_criterion (minimum : string) (s : Shelter) : Prop :=
  JsNumber.ge (ToNumber (nullish (Details.rating (details_of s)) VNull))
    (StringToNumber minimum) = true.

Definition location_criterion {L : ToLowerCase} (wanted : string)
    (s : Shelter) : Prop :=
  ci_substring wanted (location_of s).

Definition satisfies {L : ToLowerCase} (query : string)
    (criteria : FormData.t) (s : Shelter) : Prop :=
  query_criterion query s
  /\ when_active (FormData.shelter_type criteria)
       (type_criterion (FormData.shelter_type criteria) s)
  /\ when_active (FormData.rating criteria)
       (rating_criterion (FormData.rating criteria) s)
  /\ when_active (FormData.location criteria)
       (location_criterion (FormData.location criteria) s).

(** A lookup succeeds when it resolves with data and no error, and fails when
    it rejects or resolves with an error. *)
Definition succeeded {A : Type} (r : response A) : Prop :=
  exists d, r = Resolved (Some d) None.

Definition failed {A : Type} (r : response A) : Prop :=
  match r with
  | Rejected _ => True
  | Resolved _ err => err <> None
  end.

Definition rejected {A : Type} (r : response A) : Prop :=
  exists e, r = Rejected e.

(** What holds of every record the page keeps. *)
Definition well_formed (s : Shelter) : Prop :=
  shelter_details s <> None /\ (0 <= animals_count s)%Z.

(** ** Sample data *)

Definition sample_details (name loc : string) (r : value) : Details.t :=
  Details.make VNull (VStr name) (VStr "animal_shelter") (VStr loc)
    (VStr "") (VStr "") r.

Definition sample_profile (name : string) : Profile :=
  mkProfile (VStr name) (VStr name) VNull (VStr "shelter")
    (VStr "2024-01-01").

Definition sample_shelter (name loc : string) (r : value) : Shelter :=
  mkShelter (sample_profile name) (Some (sample_details name loc r)) 0.

Definition oasis : Shelter := sample_shelter "Oasis" "Kyiv" (VNum (of_Z 4)).
Definition haven : Shelter := sample_shelter "Haven" "Lviv" (VNum (of_Z 2)).
Definition nameless : Shelter := sample_shelter "Nameless" "Odesa" VNull.
Definition bare : Shelter := mkShelter (sample_profile "Bare") None 0.

Definition min_rating (r : string) : FormData.t := FormData.make "" r "" "".

(** ** The filter callback as a pure predicate *)

(** The three optional criteria as the callback computes them. *)
Definition typeMatch (f : FormData.t) (s : Shelter) : bool :=
  is_empty (FormData.shelter_type f)
  || strictEquals (or_else (Details.shelter_type (details_of s)) (VStr ""))
       (VStr (FormData.shelter_type f)).

Definition ratingMatch (f : FormData.t) (s : Shelter) : bool :=
  is_empty (FormData.rating f)
  || greaterEqual (nullish (Details.rating (details_of s)) VNull)
       (StringToNumber (FormData.rating f)).

Definition locationFilterMatch {L : ToLowerCase} (f : FormData.t)
    (s : Shelter) : bool :=
  is_empty (FormData.location f)
  || includes (toLowerCase (location_of s))
       (toLowerCase (FormData.location f)).

Definition textMatch {L : ToLowerCase} (q : string) (s : Shelter) : bool :=
  includes (toLowerCase (name_of s)) (toLowerCase q)
  || includes (toLowerCase (location_of s)) (toLowerCase q).

Definition matches {L : ToLowerCase} (q : string) (f : FormData.t)
    (s : Shelter) : bool :=
  textMatch q s && typeMatch f s && ratingMatch f s
  && locationFilterMatch f s.

(** ** Sample backends *)

Definition sample_profiles : list Profile :=
  [sample_profile "Oasis"; sample_profile "Haven"].

Definition sample_animals : list value := [VStr "a1"; VStr "a2"; VStr "a3"].

Definition not_found : exn := BackendError "PGRST116".

(** Every lookup answers. *)
Definition healthy_backend : Backend :=
  mkBackend (Resolved (Some sample_profiles) None)
    (fun pid => Resolved (Some (sample_details "Shelter" "Kyiv" VNull)) None)
    (fun pid => Resolved (Some sample_animals) None).

(** The detail lookup resolves with an error and no row; the animals are
    found. *)
Definition no_detail_backend : Backend :=
  mkBackend (Resolved (Some sample_profiles) None)
    (fun pid => Resolved None (Some not_found))
    (fun pid => Resolved (Some sample_animals) None).

(** The animals lookup rejects. *)
Definition rejecting_backend : Backend :=
  mkBackend (Resolved (Some sample_profiles) None)
    (fun pid => Resolved (Some (sample_details "Shelter" "Kyiv" VNull)) None)
    (fun pid => Rejected (BackendError "fetch failed")).

(** The profile listing resolves with an error. *)
Definition down_backend : Backend :=
  mkBackend (Resolved None (Some (BackendError "permission denied")))
    (fun pid => Resolved None (Some not_found))
    (fun pid => Resolved None (Some not_found)).

(** There is no shelter profile. *)
Definition empty_backend : Backend :=
  mkBackend (Resolved (Some []) None)
    (fun pid => Resolved None (Some not_found))
    (fun pid => Resolved (Some []) None).

(** The state in which the second effect calls [fetchShelters]. *)
Definition hydratedState : PageState := setHydrated true initialState.

(** ** What the page renders *)

(** The part of the returned tree that depends on the state: the error
    banner, and below it the spinner, the nothing-found message or one card
    per filtered shelter, keyed by [shelter.id]. *)
Inductive Body : Type :=
| Spinner
| NothingFound
| Cards (cards : list (value * Shelter)).

Record View : Type := mkView {
  banner : option string;
  body : Body
}.

(** One render of [SheltersPage]: [filteredShelters] is computed before the
    tree is built, whatever [loading] holds. *)
Definition render {L : ToLowerCase} (st : PageState) : result View :=
  (filtered <- displayed st ;;
   Ok (mkView
         match error st with
         | Some e => if is_empty e then None else Some e
         | None => None
         end
         (if loading st then Spinner
          else
            match filtered with
            | [] => NothingFound
            | _ :: _ =>
                Cards (map (fun shelter => (id (profile shelter), shelter))
                         filtered)
            end)))%result.

(** ** Vocabulary of the further properties *)

(** [v || ""] has a [toLowerCase] method: [v] is a string or is falsy. *)
Definition lowerable (v : value) : bool :=
  match or_else v (VStr "") with
  | VStr _ => true
  | _ => false
  end.

(** The callback runs on the shelter without a type error. *)
Definition callable (s : Shelter) : bool :=
  lowerable (Details.shelter_name (details_of s))
  && lowerable (Details.location (details_of s)).

(** [k] is [l] with some elements removed, the others in their order. *)
Inductive subsequence {A : Type} : list A -> list A -> Prop :=
| sub_nil : subsequence [] []
| sub_keep x k l : subsequence k l -> subsequence (x :: k) (x :: l)
| sub_drop x k l : subsequence k l -> subsequence k (x :: l).

(** What the callback of [fetchShelters] reads of a lookup: nothing when the
    promise rejects, otherwise the [data] field. *)
Definition data_of {A : Type} (r : response A) : option (option A) :=
  match r with
  | Rejected _ => None
  | Resolved data _ => Some data
  end.

(** Every name and place the backend returns is text or missing. *)
Definition text_backend (db : Backend) : Prop :=
  (forall ps err p,
     profiles_query db = Resolved (Some ps) err -> In p ps ->
     text_or_missing (full_name p) = true
     /\ text_or_missing (address p) = true)
  /\ (forall pid d err,
        shelter_details_query db pid = Resolved (Some d) err ->
        text_or_missing (Details.shelter_name d) = true
        /\ text_or_missing (Details.location d) = true).

(** The lookups answer with data and with an error beside it. *)
Definition noisy_backend : Backend :=
  mkBackend (Resolved (Some sample_profiles) None)
    (fun pid =>
       Resolved (Some (sample_details "Shelter" "Kyiv" VNull))
         (Some not_found))
    (fun pid => Resolved (Some sample_animals) (Some not_found)).

(** ** Strings *)

Lemma prefix_empty (s : string) : prefix "" s = true.
Proof. destruct s; reflexivity. Qed.

Lemma prefix_iff (p s : string) :
  prefix p s = true <-> exists t, s = p ++ t.
Proof.
  revert s; induction p as [|a p IH]; intros s.
  - rewrite prefix_empty. split; [intros _; exists s; reflexivity | trivial].
  - destruct s as [|b s]; simpl.
    + split; [discriminate | intros [t Ht]; discriminate].
    + destruct (ascii_dec a b) as [->|Hab].
      * rewrite IH. split; intros [t Ht]; exists t.
        -- now rewrite Ht.
        -- now injection Ht.
      * split; [discriminate | intros [t Ht]; injection Ht; congruence].
Qed.

Lemma includes_iff (s n : string) :
  includes s n = true <-> exists pre post, s = pre ++ n ++ post.
Proof.
  induction s as [|c s IH]; cbn [includes].
  - rewrite prefix_iff. split.
    + intros [t Ht]. exists "", t. exact Ht.
    + intros [pre [post H]]. destruct pre; [now exists post | discriminate].
  - rewrite orb_true_iff, prefix_iff, IH. split.
    + intros [[t Ht] | [pre [post H]]].
      * exists "", t. exact Ht.
      * exists (String c pre), post. simpl. now rewrite H.
    + intros [pre [post H]]. destruct pre as [|c' pre]; simpl in H.
      * left. now exists post.
      * right. injection H as _ H. now exists pre, post.
Qed.

Lemma includes_empty (s : string) : includes s "" = true.
Proof. apply includes_iff. exists "", s. reflexivity. Qed.

(** Lowering both sides and searching is the case-insensitive match. *)
Lemma includes_lower_iff {L : ToLowerCase} (hay needle : string) :
  includes (toLowerCase hay) (toLowerCase needle) = true
  <-> ci_substring needle hay.
Proof. apply includes_iff. Qed.

Lemma or_else_text (v : value) :
  text_or_missing v = true -> or_else v (VStr "") = VStr (text_of v).
Proof.
  destruct v as [| | b | n | s]; simpl; try discriminate; try reflexivity.
  intros _. unfold or_else; simpl. destruct (String.eqb_spec s ""); simpl;
    [now subst | reflexivity].
Qed.

Lemma filterCallback_pure {L : ToLowerCase} (q : string) (f : FormData.t) (s : Shelter) :
  text_fields_ok s -> filterCallback q f s = Ok (matches q f s).
Proof.
  intros [Hn Hl]. unfold filterCallback. fold (details_of s).
  rewrite (or_else_text _ Hn), (or_else_text _ Hl). simpl.
  unfold matches, textMatch, typeMatch, ratingMatch, locationFilterMatch,
    name_of, location_of.
  destruct (is_empty (FormData.location f)); simpl;
    rewrite ?andb_true_r; reflexivity.
Qed.

(** Whatever the fields hold, a shelter the callback keeps passes the rating
    test. *)
Lemma filterCallback_rating {L : ToLowerCase} (q : string) (f : FormData.t) (s : Shelter) :
  filterCallback q f s = Ok true -> ratingMatch f s = true.
Proof.
  unfold filterCallback, ratingMatch. fold (details_of s).
  destruct (call_toLowerCase (or_else (Details.shelter_name _) _));
    [| discriminate].
  destruct (call_toLowerCase (or_else (Details.location _) _));
    [| discriminate].
  simpl. destruct (is_empty (FormData.location f)); simpl; intros H;
    injection H as H; rewrite !andb_true_iff in H; tauto.
Qed.

Lemma is_empty_or (c : string) (b : bool) :
  is_empty c || b = true <-> when_active c (b = true).
Proof.
  unfold is_empty, when_active. destruct (String.eqb_spec c ""); simpl.
  - split; [contradiction | reflexivity].
  - split; auto.
Qed.

Lemma strictEquals_text (s c : string) :
  strictEquals (VStr s) (VStr c) = true <-> s = c.
Proof. apply String.eqb_eq. Qed.

Lemma type_equality (v : value) (c : string) :
  c <> "" ->
  strictEquals (or_else v (VStr "")) (VStr c) = true <-> v = VStr c.
Proof.
  intros Hc. unfold or_else.
  assert (Hfalsy : forall w : value, w <> VStr c ->
            strictEquals (VStr "") (VStr c) = true <-> w = VStr c).
  { intros w Hw. rewrite strictEquals_text. split; [congruence | contradiction]. }
  destruct v as [| | b | n | s]; cbn [ToBoolean].
  - apply Hfalsy. discriminate.
  - apply Hfalsy. discriminate.
  - destruct b; [split; discriminate | apply Hfalsy; discriminate].
  - destruct (JsNumber.truthy n); [split; discriminate |].
    apply Hfalsy. discriminate.
  - destruct (String.eqb_spec s ""); cbn [negb]; rewrite strictEquals_text.
    + subst. split; [congruence | intros H; injection H; congruence].
    + split; [congruence | intros H; now injection H].
Qed.

Lemma matches_iff {L : ToLowerCase} (q : string) (f : FormData.t) (s : Shelter) :
  matches q f s = true <-> satisfies q f s.
Proof.
  unfold matches, satisfies, textMatch, typeMatch, ratingMatch,
    locationFilterMatch, query_criterion, type_criterion, rating_criterion,
    location_criterion.
  rewrite !andb_true_iff, orb_true_iff, !is_empty_or, !includes_lower_iff.
  unfold when_active, greaterEqual.
  split.
  - intros [[[Hq Ht] Hr] Hl]. split; [exact Hq |].
    split; [| split; [exact Hr |]]; intros Hc.
    + now apply type_equality, Ht.
    + now apply includes_lower_iff, Hl.
  - intros [Hq [Ht [Hr Hl]]].
    split; [split; [split; [exact Hq |] | exact Hr] |]; intros Hc.
    + now apply type_equality, Ht.
    + now apply includes_lower_iff, Hl.
Qed.

(** ** [Array.prototype.filter] *)

Lemma array_filter_pure {A : Type} (f : A -> result bool) (p : A -> bool)
    (l : list A) :
  (forall x, In x l -> f x = Ok (p x)) -> array_filter f l = Ok (filter p l).
Proof.
  induction l as [|x l IH]; intros H; simpl; [reflexivity |].
  rewrite (H x (or_introl eq_refl)). simpl.
  rewrite IH by (intros y Hy; apply H; now right). simpl.
  now destruct (p x).
Qed.

Lemma array_filter_kept {A : Type} (f : A -> result bool) (l l' : list A)
    (x : A) :
  array_filter f l = Ok l' -> In x l' -> In x l /\ f x = Ok true.
Proof.
  revert l'; induction l as [|y l IH]; intros l'; simpl.
  - intros H; injection H as <-. contradiction.
  - destruct (f y) as [keep|e] eqn:Hy; simpl; [| discriminate].
    destruct (array_filter f l) as [rest|e]; simpl; [| discriminate].
    intros H; injection H as <-. destruct keep.
    + intros [<- | Hx]; [split; [now left | exact Hy] |].
      destruct (IH rest eq_refl Hx). split; [now right | assumption].
    + intros Hx. destruct (IH rest eq_refl Hx). split; [now right | assumption].
Qed.

Lemma array_filter_again {A : Type} (f : A -> result bool) (l : list A) :
  bind (array_filter f l) (array_filter f) = array_filter f l.
Proof.
  induction l as [|x l IH]; simpl; [reflexivity |].
  destruct (f x) as [keep|e] eqn:Hx; simpl; [| reflexivity].
  destruct (array_filter f l) as [rest|e]; simpl in *; [| reflexivity].
  destruct keep; [| exact IH].
  simpl. rewrite Hx. simpl. rewrite IH. reflexivity.
Qed.

Lemma filter_all {A : Type} (p : A -> bool) (l : list A) :
  (forall x, In x l -> p x = true) -> filter p l = l.
Proof.
  induction l as [|x l IH]; intros H; simpl; [reflexivity |].
  rewrite (H x (or_introl eq_refl)), IH; [reflexivity |].
  intros y Hy. apply H. now right.
Qed.

(** ** Numbers *)

Lemma zero_ge_false (n : number) :
  JsNumber.isNaN n = true \/ JsNumber.positive n = true ->
  JsNumber.ge zero n = false.
Proof.
  destruct n as [sg | sg | | sg m e]; simpl;
    intros [H | H]; try discriminate; try reflexivity;
    destruct sg; try discriminate; reflexivity.
Qed.

(** ** Properties of the filter *)

(** C3, as amended: a shelter whose detail record has no rating is excluded
    by every non-empty minimum-rating criterion whose Number value is greater
    than zero or is NaN, whatever the text query and the other fields. *)
Theorem unrated_excluded_by_positive_minimum {L : ToLowerCase}
    (q : string) (f : FormData.t) (l kept : list Shelter) (s : Shelter) :
  unrated s ->
  FormData.rating f <> "" ->
  JsNumber.isNaN (StringToNumber (FormData.rating f)) = true
  \/ JsNumber.positive (StringToNumber (FormData.rating f)) = true ->
  filteredShelters q f l = Ok kept ->
  ~ In s kept.
Proof.
  intros Hs Hf Hn Hl Hin.
  destruct (array_filter_kept _ _ _ _ Hl Hin) as [_ Hk].
  apply filterCallback_rating in Hk. unfold ratingMatch in Hk.
  apply is_empty_or in Hk. specialize (Hk Hf).
  unfold greaterEqual in Hk.
  assert (H0 : ToNumber (nullish (Details.rating (details_of s)) VNull) = zero)
    by (destruct Hs as [-> | ->]; reflexivity).
  rewrite H0, (zero_ge_false _ Hn) in Hk. discriminate.
Qed.

Lemma unrated_excluded_by_positive_minimum_witness :
  unrated nameless
  /\ filteredShelters "" (min_rating "3") [oasis; haven; nameless]
     = Ok [oasis]
  /\ ~ In nameless [oasis].
Proof.
  split; [right; reflexivity |].
  split; [vm_compute; reflexivity |].
  apply (unrated_excluded_by_positive_minimum "" (min_rating "3")
           [oasis; haven; nameless] [oasis] nameless).
  - right; reflexivity.
  - discriminate.
  - right. vm_compute. reflexivity.
  - vm_compute. reflexivity.
Defined.

(** C3, as stated, fails: with the minimum "0" a shelter without a rating
    passes, since [null >= 0] holds. *)
Lemma unrated_kept_by_zero_minimum :
  unrated nameless
  /\ FormData.rating (min_rating "0") <> ""
  /\ filteredShelters "" (min_rating "0") [nameless] = Ok [nameless]
  /\ In nameless [nameless].
Proof.
  split; [right; reflexivity |].
  split; [discriminate |].
  split; [vm_compute; reflexivity | now left].
Qed.

(** C6: on shelters whose name and location are text or missing, the filter
    keeps exactly the shelters that satisfy the conjunction of the criteria:
    the free-text query matches the name or the location as a
    case-insensitive substring, and each of the type, rating and location
    criteria holds when its field is not empty. *)
Theorem filteredShelters_conjunction {L : ToLowerCase}
    (q : string) (f : FormData.t) (l : list Shelter) :
  Forall text_fields_ok l ->
  exists kept,
    filteredShelters q f l = Ok kept
    /\ forall s, In s kept <-> In s l /\ satisfies q f s.
Proof.
  intros Hl. exists (filter (matches q f) l). split.
  - apply array_filter_pure. intros s Hs. apply filterCallback_pure.
    rewrite Forall_forall in Hl. now apply Hl.
  - intros s. rewrite filter_In, matches_iff. reflexivity.
Qed.

Lemma sample_text_fields_ok (name loc : string) (r : value) :
  text_fields_ok (sample_shelter name loc r).
Proof. split; reflexivity. Qed.

Lemma filteredShelters_conjunction_witness :
  Forall text_fields_ok [oasis; haven; bare]
  /\ exists kept,
       filteredShelters "KYIV" (min_rating "3") [oasis; haven; bare] = Ok kept
       /\ forall s, In s kept
            <-> In s [oasis; haven; bare]
                /\ satisfies "KYIV" (min_rating "3") s.
Proof.
  assert (H : Forall text_fields_ok [oasis; haven; bare]).
  { repeat constructor. }
  split; [exact H |].
  exact (filteredShelters_conjunction "KYIV" (min_rating "3")
           [oasis; haven; bare] H).
Defined.

(** C7: filtering the output of the filter again, with the same query and
    criteria, gives that output; when the first pass throws there is no
    output and the composition throws the same error. *)
Theorem filteredShelters_idempotent {L : ToLowerCase}
    (q : string) (f : FormData.t) (l : list Shelter) :
  bind (filteredShelters q f l) (filteredShelters q f)
  = filteredShelters q f l.
Proof. apply array_filter_again. Qed.

(** C8: the [free_places] field of the form does not reach the filter: two
    forms that differ only there give the same result. *)
Theorem free_places_ignored {L : ToLowerCase}
    (q ty ra fp fp' lo : string) (l : list Shelter) :
  filteredShelters q (FormData.make ty ra fp lo) l
  = filteredShelters q (FormData.make ty ra fp' lo) l.
Proof. reflexivity. Qed.

(** C10: with an empty query and the four criteria empty the filter returns
    the whole list and does not throw, for shelters whose name and location
    are text or missing, a missing detail object included. *)
Theorem filteredShelters_no_criteria_identity {L : ToLowerCase} (l : list Shelter) :
  Forall text_fields_ok l ->
  filteredShelters "" FormData.initial l = Ok l.
Proof.
  intros Hl. unfold filteredShelters.
  rewrite (array_filter_pure _ (matches "" FormData.initial)).
  - f_equal. apply filter_all. intros s _.
    unfold matches, textMatch.
    now rewrite toLowerCase_empty, includes_empty.
  - intros s Hs. apply filterCallback_pure.
    rewrite Forall_forall in Hl. now apply Hl.
Qed.

Lemma filteredShelters_no_criteria_identity_witness :
  Forall text_fields_ok [oasis; bare; nameless]
  /\ filteredShelters "" FormData.initial [oasis; bare; nameless]
     = Ok [oasis; bare; nameless].
Proof.
  assert (H : Forall text_fields_ok [oasis; bare; nameless]).
  { repeat constructor. }
  split; [exact H |].
  exact (filteredShelters_no_criteria_identity [oasis; bare; nameless] H).
Defined.

(** The examples of the specification: a text query "kyiv" and a minimum
    rating of 3 each keep only "Oasis"; an unmatched query with a rating
    filter keeps nothing. *)
Example query_kyiv :
  filteredShelters "kyiv" FormData.initial [oasis; haven] = Ok [oasis].
Proof. vm_compute. reflexivity. Qed.

Example minimum_three :
  filteredShelters "" (min_rating "3") [oasis; haven] = Ok [oasis].
Proof. vm_compute. reflexivity. Qed.

Example unmatched_query :
  filteredShelters "zzz" (min_rating "1") [oasis; haven] = Ok [].
Proof. vm_compute. reflexivity. Qed.

(** A name that is a number has no [toLowerCase]: the filter throws. *)
Example numeric_name_throws :
  filteredShelters "" FormData.initial
    [mkShelter (sample_profile "Odd")
       (Some (Details.make VNull (VNum (of_Z 7)) VNull VNull VNull VNull
                VNull)) 0]
  = Throw TypeError.
Proof. vm_compute. reflexivity. Qed.

Example number_of_tenth :
  StringToNumber "0.1" = S754_finite false 7205759403792794 (-56).
Proof. vm_compute. reflexivity. Qed.

Example number_of_blank : StringToNumber "  " = zero.
Proof. vm_compute. reflexivity. Qed.

Example number_of_word : StringToNumber "five" = NaN.
Proof. vm_compute. reflexivity. Qed.

Example number_underflows : StringToNumber "1e-400" = zero.
Proof. vm_compute. reflexivity. Qed.

(** ** fetchShelters, case by case *)

Lemma fetchShelters_listed (db : Backend) (st : PageState)
    (ps : list Profile) :
  profiles_query db = Resolved (Some ps) None ->
  fetchShelters db st
  = (Ok tt,
     mkPageState (map (withDetails db) ps) false None (searchQuery st) true
       (hydrated st) (formData st)).
Proof.
  intros H. unfold fetchShelters, try_finally, try_catch, seq, lift, modify.
  rewrite H. destruct ps; reflexivity.
Qed.

Lemma fetchShelters_no_data (db : Backend) (st : PageState) :
  profiles_query db = Resolved None None ->
  fetchShelters db st
  = (Ok tt,
     mkPageState [] false None (searchQuery st) true (hydrated st)
       (formData st)).
Proof.
  intros H. unfold fetchShelters, try_finally, try_catch, seq, lift, modify.
  rewrite H. reflexivity.
Qed.

Lemma fetchShelters_failed (db : Backend) (st : PageState) :
  failed (profiles_query db) ->
  fetchShelters db st
  = (Ok tt,
     mkPageState (shelters st) false (Some load_failure) (searchQuery st) true
       (hydrated st) (formData st)).
Proof.
  unfold fetchShelters, try_finally, try_catch, seq, lift, modify, failed.
  destruct (profiles_query db) as [e | data [e|]]; simpl.
  - reflexivity.
  - reflexivity.
  - intros H. now contradiction H.
Qed.

(** The three cases cover every answer of the listing. *)
Lemma listing_cases (db : Backend) :
  (exists ps, profiles_query db = Resolved (Some ps) None)
  \/ profiles_query db = Resolved None None
  \/ failed (profiles_query db).
Proof.
  unfold failed. destruct (profiles_query db) as [e | [ps|] [e|]].
  - right; right; exact I.
  - right; right; discriminate.
  - left; now exists ps.
  - right; right; discriminate.
  - right; left; reflexivity.
Qed.

Lemma fetchShelters_completes (db : Backend) (st : PageState) :
  fst (fetchShelters db st) = Ok tt
  /\ initialized (snd (fetchShelters db st)) = true
  /\ loading (snd (fetchShelters db st)) = false.
Proof.
  destruct (listing_cases db) as [[ps H] | [H | H]].
  - now rewrite (fetchShelters_listed db st ps H).
  - now rewrite (fetchShelters_no_data db st H).
  - now rewrite (fetchShelters_failed db st H).
Qed.

Lemma withDetails_profile (db : Backend) (p : Profile) :
  profile (withDetails db p) = p.
Proof.
  unfold withDetails.
  destruct (shelter_details_query db (id p)) as [e | d err]; simpl;
    [reflexivity |].
  destruct (animals_query db (id p)) as [e | rows err']; reflexivity.
Qed.

Lemma withDetails_well_formed (db : Backend) (p : Profile) :
  well_formed (withDetails db p).
Proof.
  unfold withDetails, well_formed.
  destruct (shelter_details_query db (id p)) as [e | d err]; simpl;
    [split; [discriminate | lia] |].
  destruct (animals_query db (id p)) as [e | rows err']; simpl;
    [split; [discriminate | lia] |].
  split; [discriminate |]. destruct rows; simpl; lia.
Qed.

Lemma map_withDetails_profile (db : Backend) (ps : list Profile) :
  map profile (map (withDetails db) ps) = ps.
Proof.
  induction ps as [|p ps IH]; simpl; [reflexivity |].
  now rewrite withDetails_profile, IH.
Qed.

(** Until a fetch has completed the list of shelters is empty. *)
Lemma uninitialized_empty (db : Backend) (st : PageState) :
  reachable db st -> initialized st = false -> shelters st = [].
Proof.
  induction 1 as [| st st' _ IH Hstep]; [reflexivity |].
  destruct Hstep as [st | st | st q | st name v]; simpl; try exact IH.
  unfold fetchEffect. destruct (hydrated st && negb (initialized st)).
  - intros H. destruct (fetchShelters_completes db st) as [_ [Hi _]].
    congruence.
  - exact IH.
Qed.

(** ** Properties of fetchShelters *)

(** C1: when the profile query returns [ps] and every detail and count
    lookup succeeds, fetchShelters completes with one record per profile, in
    the order of the profile query, and each record carries the detail row
    and the count fetched for its profile. *)
Theorem fetchShelters_one_record_per_profile
    (db : Backend) (st : PageState) (ps : list Profile) :
  profiles_query db = Resolved (Some ps) None ->
  (forall p, In p ps ->
     succeeded (shelter_details_query db (id p))
     /\ succeeded (animals_query db (id p))) ->
  fst (fetchShelters db st) = Ok tt
  /\ List.length (shelters (snd (fetchShelters db st))) = List.length ps
  /\ map profile (shelters (snd (fetchShelters db st))) = ps
  /\ forall s, In s (shelters (snd (fetchShelters db st))) ->
       exists d rows,
         shelter_details_query db (id (profile s)) = Resolved (Some d) None
         /\ animals_query db (id (profile s)) = Resolved (Some rows) None
         /\ shelter_details s = Some d
         /\ animals_count s = Z.of_nat (List.length rows).
Proof.
  intros Hq Hok. rewrite (fetchShelters_listed db st ps Hq). simpl.
  split; [reflexivity |].
  split; [apply length_map |].
  split; [apply map_withDetails_profile |].
  intros s Hs. apply in_map_iff in Hs as [p [<- Hp]].
  destruct (Hok p Hp) as [[d Hd] [rows Hr]].
  exists d, rows. rewrite withDetails_profile.
  unfold withDetails. rewrite Hd, Hr. simpl. auto.
Qed.

Lemma fetchShelters_one_record_per_profile_witness :
  map profile (shelters (snd (fetchShelters healthy_backend hydratedState)))
  = sample_profiles.
Proof.
  apply (fetchShelters_one_record_per_profile healthy_backend hydratedState
           sample_profiles).
  - reflexivity.
  - intros p _. split.
    + exists (sample_details "Shelter" "Kyiv" VNull). reflexivity.
    + exists sample_animals. reflexivity.
Defined.

(** C2, as amended: the batch is never aborted, every profile has its record.
    When the detail or the count lookup of a profile rejects, the record has
    the default details (name the profile's [full_name], type
    "animal_shelter", location the profile's address or "Unknown", empty
    description and website) and a count of 0. When a lookup resolves
    without data, only that part is defaulted: the default details for a
    missing detail row, a count of 0 for missing animal rows; the other part
    keeps its fetched value, the number of the animal rows or the detail
    row. *)
Theorem failed_lookup_defaults
    (db : Backend) (st : PageState) (ps : list Profile) :
  profiles_query db = Resolved (Some ps) None ->
  map profile (shelters (snd (fetchShelters db st))) = ps
  /\ forall p, In p ps ->
       In (withDetails db p) (shelters (snd (fetchShelters db st)))
       /\ (rejected (shelter_details_query db (id p))
           \/ rejected (animals_query db (id p)) ->
           withDetails db p = mkShelter p (Some (defaultDetails p)) 0)
       /\ (forall err,
             shelter_details_query db (id p) = Resolved None err ->
             shelter_details (withDetails db p) = Some (defaultDetails p))
       /\ (forall err,
             animals_query db (id p) = Resolved None err ->
             animals_count (withDetails db p) = 0%Z)
       /\ (forall err rows err',
             shelter_details_query db (id p) = Resolved None err ->
             animals_query db (id p) = Resolved (Some rows) err' ->
             withDetails db p
             = mkShelter p (Some (defaultDetails p))
                 (Z.of_nat (List.length rows)))
       /\ (forall d err err',
             shelter_details_query db (id p) = Resolved (Some d) err ->
             animals_query db (id p) = Resolved None err' ->
             withDetails db p = mkShelter p (Some d) 0)
       /\ Details.shelter_name (defaultDetails p) = full_name p
       /\ Details.shelter_type (defaultDetails p) = VStr "animal_shelter"
       /\ Details.location (defaultDetails p)
          = (if ToBoolean (address p) then address p else VStr "Unknown")
       /\ Details.description (defaultDetails p) = VStr ""
       /\ Details.website (defaultDetails p) = VStr "".
Proof.
  intros Hq. rewrite (fetchShelters_listed db st ps Hq). simpl.
  split; [apply map_withDetails_profile |].
  intros p Hp. split; [now apply in_map |].
  unfold withDetails.
  split; [| split; [| split; [| split; [| split; [| repeat split]]]]].
  - intros [[e He] | [e He]].
    + now rewrite He.
    + rewrite He. now destruct (shelter_details_query db (id p)).
  - intros err He. rewrite He. simpl.
    now destruct (animals_query db (id p)).
  - intros err He. rewrite He.
    now destruct (shelter_details_query db (id p)).
  - intros err rows err' Hd Hr. now rewrite Hd, Hr.
  - intros d err err' Hd Hr. now rewrite Hd, Hr.
Qed.

Lemma failed_lookup_defaults_witness :
  map animals_count
    (shelters (snd (fetchShelters rejecting_backend hydratedState)))
  = [0%Z; 0%Z].
Proof.
  destruct (failed_lookup_defaults rejecting_backend hydratedState
              sample_profiles eq_refl) as [_ H].
  destruct (H (sample_profile "Oasis") (or_introl eq_refl))
    as [_ [Ho _]].
  destruct (H (sample_profile "Haven") (or_intror (or_introl eq_refl)))
    as [_ [Hh _]].
  rewrite (fetchShelters_listed rejecting_backend hydratedState
             sample_profiles eq_refl).
  cbn [snd shelters map sample_profiles].
  rewrite Ho, Hh; [reflexivity | |].
  - right. exists (BackendError "fetch failed"). reflexivity.
  - right. exists (BackendError "fetch failed"). reflexivity.
Defined.

(** C2, as stated, fails: a detail lookup that fails by resolving with an
    error leaves the count of the animals that were found. *)
Lemma failed_detail_keeps_count :
  In (sample_profile "Oasis") sample_profiles
  /\ failed (shelter_details_query no_detail_backend
               (id (sample_profile "Oasis")))
  /\ shelters (snd (fetchShelters no_detail_backend hydratedState))
     = [mkShelter (sample_profile "Oasis")
          (Some (defaultDetails (sample_profile "Oasis"))) 3;
        mkShelter (sample_profile "Haven")
          (Some (defaultDetails (sample_profile "Haven"))) 3]
  /\ animals_count (withDetails no_detail_backend (sample_profile "Oasis"))
     <> 0%Z.
Proof.
  split; [now left |].
  split; [simpl; discriminate |].
  split; [reflexivity | discriminate].
Qed.

(** C4: when the profile listing fails, fetchShelters, called as the page
    calls it (before any fetch has completed), leaves the error message set,
    the list of shelters and the displayed list empty, and the loading flag
    off. *)
Theorem fetchShelters_listing_failure {L : ToLowerCase} (db : Backend) (st : PageState) :
  reachable db st ->
  initialized st = false ->
  failed (profiles_query db) ->
  fst (fetchShelters db st) = Ok tt
  /\ error (snd (fetchShelters db st)) = Some load_failure
  /\ shelters (snd (fetchShelters db st)) = []
  /\ displayed (snd (fetchShelters db st)) = Ok []
  /\ loading (snd (fetchShelters db st)) = false.
Proof.
  intros Hr Hi Hf. rewrite (fetchShelters_failed db st Hf).
  unfold displayed. simpl.
  rewrite (uninitialized_empty db st Hr Hi). repeat split.
Qed.

Lemma fetchShelters_listing_failure_witness :
  error (snd (fetchShelters down_backend hydratedState)) = Some load_failure
  /\ displayed (snd (fetchShelters down_backend hydratedState)) = Ok [].
Proof.
  destruct (fetchShelters_listing_failure down_backend hydratedState)
    as [_ [He [_ [Hd _]]]].
  - apply (reach_step _ initialState); [apply reach_init | apply step_hydrate].
  - reflexivity.
  - simpl. discriminate.
  - split; [exact He | exact Hd].
Defined.

(** C5: in every state the page reaches, every shelter of the list has a
    detail object and a count that is at least 0. *)
Theorem shelters_well_formed (db : Backend) (st : PageState) :
  reachable db st -> Forall well_formed (shelters st).
Proof.
  induction 1 as [| st st' _ IH Hstep]; [constructor |].
  destruct Hstep as [st | st | st q | st name v]; simpl; try exact IH.
  unfold fetchEffect. destruct (hydrated st && negb (initialized st));
    [| exact IH].
  destruct (listing_cases db) as [[ps H] | [H | H]].
  - rewrite (fetchShelters_listed db st ps H). simpl.
    apply Forall_forall. intros s Hs.
    apply in_map_iff in Hs as [p [<- _]]. apply withDetails_well_formed.
  - rewrite (fetchShelters_no_data db st H). constructor.
  - rewrite (fetchShelters_failed db st H). exact IH.
Qed.

Lemma shelters_well_formed_witness :
  Forall well_formed
    (shelters (fetchEffect no_detail_backend hydratedState)).
Proof.
  apply (shelters_well_formed no_detail_backend).
  apply (reach_step _ hydratedState); [| apply step_fetch].
  apply (reach_step _ initialState); [apply reach_init | apply step_hydrate].
Defined.

(** C9: when the profile query returns no profile, fetchShelters completes
    with an empty list, no error, and the loading flag off. *)
Theorem fetchShelters_no_profiles (db : Backend) (st : PageState) :
  profiles_query db = Resolved (Some []) None ->
  fst (fetchShelters db st) = Ok tt
  /\ shelters (snd (fetchShelters db st)) = []
  /\ error (snd (fetchShelters db st)) = None
  /\ loading (snd (fetchShelters db st)) = false
  /\ initialized (snd (fetchShelters db st)) = true.
Proof.
  intros H. rewrite (fetchShelters_listed db st [] H). repeat split.
Qed.

Lemma fetchShelters_no_profiles_witness :
  shelters (snd (fetchShelters empty_backend hydratedState)) = []
  /\ error (snd (fetchShelters empty_backend hydratedState)) = None
  /\ loading (snd (fetchShelters empty_backend hydratedState)) = false.
Proof.
  destruct (fetchShelters_no_profiles empty_backend hydratedState eq_refl)
    as [_ [Hs [He [Hl _]]]].
  repeat split; assumption.
Defined.

(** ** The filter on arbitrary rows *)

Lemma call_or_else {L : ToLowerCase} (v : value) :
  call_toLowerCase (or_else v (VStr ""))
  = if lowerable v then Ok (toLowerCase (text_of v)) else Throw TypeError.
Proof.
  unfold lowerable, or_else.
  destruct v as [| | b | n | s]; cbn [ToBoolean]; try reflexivity.
  - destruct b; reflexivity.
  - destruct (JsNumber.truthy n); reflexivity.
  - destruct (String.eqb_spec s ""); cbn [negb]; [subst |]; reflexivity.
Qed.

Lemma filterCallback_cases {L : ToLowerCase} (q : string) (f : FormData.t) (s : Shelter) :
  filterCallback q f s
  = if callable s then Ok (matches q f s) else Throw TypeError.
Proof.
  unfold filterCallback, callable. fold (details_of s).
  rewrite !call_or_else.
  destruct (lowerable (Details.shelter_name (details_of s)));
    [| reflexivity].
  destruct (lowerable (Details.location (details_of s))); [| reflexivity].
  cbn [bind andb].
  unfold matches, textMatch, typeMatch, ratingMatch, locationFilterMatch,
    name_of, location_of.
  destruct (is_empty (FormData.location f)); cbn [bind orb];
    rewrite ?andb_true_r; reflexivity.
Qed.

Lemma array_filter_cases {A : Type} (ok : A -> bool) (p : A -> bool)
    (f : A -> result bool) (l : list A) :
  (forall x, f x = if ok x then Ok (p x) else Throw TypeError) ->
  array_filter f l
  = if forallb ok l then Ok (filter p l) else Throw TypeError.
Proof.
  intros Hf. induction l as [|x l IH]; [reflexivity |].
  cbn [array_filter forallb filter]. rewrite Hf, IH.
  destruct (ok x); [| reflexivity]. cbn [bind andb].
  destruct (forallb ok l); [| reflexivity]. cbn [bind].
  now destruct (p x).
Qed.

Lemma text_or_missing_lowerable (v : value) :
  text_or_missing v = true -> lowerable v = true.
Proof.
  unfold lowerable, or_else.
  destruct v as [| | b | n | s]; cbn [ToBoolean text_or_missing];
    try discriminate; try reflexivity.
  intros _. now destruct (negb (String.eqb s "")).
Qed.

Lemma filter_subsequence {A : Type} (p : A -> bool) (l : list A) :
  subsequence (filter p l) l.
Proof.
  induction l as [|x l IH]; simpl; [constructor |].
  destruct (p x); now constructor.
Qed.

Lemma subsequence_length {A : Type} (k l : list A) :
  subsequence k l -> (List.length k <= List.length l)%nat.
Proof. induction 1; simpl; lia. Qed.

Lemma append_assoc (a b c : string) : (a ++ b) ++ c = a ++ b ++ c.
Proof. induction a as [|x a IH]; simpl; [reflexivity | now rewrite IH]. Qed.

Lemma includes_part (h a n b : string) :
  includes h (a ++ n ++ b) = true -> includes h n = true.
Proof.
  rewrite !includes_iff. intros [pre [post ->]].
  exists (pre ++ a), (b ++ post). now rewrite !append_assoc.
Qed.

Lemma filteredShelters_filter {L : ToLowerCase}
    (q : string) (f : FormData.t) (l : list Shelter) :
  filteredShelters q f l
  = if forallb callable l then Ok (filter (matches q f) l)
    else Throw TypeError.
Proof.
  apply array_filter_cases. intros s. apply filterCallback_cases.
Qed.

Lemma filteredShelters_Ok {L : ToLowerCase}
    (q : string) (f : FormData.t) (l kept : list Shelter) :
  filteredShelters q f l = Ok kept ->
  forallb callable l = true /\ kept = filter (matches q f) l.
Proof.
  rewrite filteredShelters_filter.
  destruct (forallb callable l); [| discriminate].
  intros H; injection H as <-. auto.
Qed.

Lemma filter_narrower {A : Type} (p p' : A -> bool) (l : list A) :
  (forall x, In x l -> p' x = true -> p x = true) ->
  subsequence (filter p' l) (filter p l).
Proof.
  induction l as [|x l IH]; intros H; simpl; [constructor |].
  assert (IH' : subsequence (filter p' l) (filter p l))
    by (apply IH; intros y Hy; apply H; now right).
  destruct (p' x) eqn:Hp'.
  - rewrite (H x (or_introl eq_refl) Hp'). now constructor.
  - destruct (p x); [now constructor | exact IH'].
Qed.

Lemma forallb_filter {A : Type} (ok p : A -> bool) (l : list A) :
  forallb ok l = true -> forallb ok (filter p l) = true.
Proof.
  induction l as [|x l IH]; simpl; [reflexivity |].
  rewrite andb_true_iff. intros [Hx Hl].
  destruct (p x); simpl; [rewrite Hx |]; auto.
Qed.

Lemma filter_twice {A : Type} (p p' : A -> bool) (l : list A) :
  filter p (filter p' l) = filter (fun x => p' x && p x) l.
Proof.
  induction l as [|x l IH]; simpl; [reflexivity |].
  destruct (p' x); simpl; [destruct (p x) |]; now rewrite IH.
Qed.

Lemma ge_trans (x y z : number) :
  JsNumber.ge x y = true -> JsNumber.ge y z = true -> JsNumber.ge x z = true.
Proof.
  unfold JsNumber.ge, lessThan.
  destruct x as [sx | sx | | sx mx ex], y as [sy | sy | | sy my ey],
    z as [sz | sz | | sz mz ez]; cbn [SFcompare];
    try discriminate; try reflexivity;
    try (destruct sx); try (destruct sy); try (destruct sz);
    try discriminate; try reflexivity.
  all: change (Pos.compare_cont Eq) with Pos.compare.
  all: repeat match goal with
       | |- context [Z.compare ?a ?b] => destruct (Z.compare_spec a b)
       | |- context [Pos.compare ?a ?b] => destruct (Pos.compare_spec a b)
       end; cbn [CompOpp]; try discriminate; try reflexivity; try lia.
Qed.

Lemma zero_ge_true (n : number) :
  JsNumber.isNaN n = false -> JsNumber.positive n = false ->
  JsNumber.ge zero n = true.
Proof.
  destruct n as [sg | sg | | sg m e]; simpl; try discriminate;
    destruct sg; try discriminate; reflexivity.
Qed.

(** X1: the filter throws exactly when some shelter of the list has a name
    or a location that is neither a string nor falsy, whatever the query and
    the criteria, and the error is a type error; otherwise it returns the
    shelters on which the conjunction of the tests is true. *)
Theorem filteredShelters_cases {L : ToLowerCase}
    (q : string) (f : FormData.t) (l : list Shelter) :
  filteredShelters q f l
  = if forallb callable l then Ok (filter (matches q f) l)
    else Throw TypeError.
Proof. apply filteredShelters_filter. Qed.

(** X2: what the filter returns is the input with some shelters removed: the
    kept shelters stand in their original order and are no more than the
    input. *)
Theorem filteredShelters_subsequence {L : ToLowerCase}
    (q : string) (f : FormData.t) (l kept : list Shelter) :
  filteredShelters q f l = Ok kept ->
  subsequence kept l /\ (List.length kept <= List.length l)%nat.
Proof.
  intros H. apply filteredShelters_Ok in H as [_ ->].
  split; [apply filter_subsequence |].
  apply subsequence_length, filter_subsequence.
Qed.

Lemma filteredShelters_subsequence_witness :
  subsequence [oasis; nameless] [oasis; haven; nameless].
Proof.
  apply (filteredShelters_subsequence "s" FormData.initial
           [oasis; haven; nameless] [oasis; nameless]).
  vm_compute. reflexivity.
Defined.

(** X3: a query that contains another narrows the result: when the
    lowered [q] is a part of the lowered [q'], whatever the filter returns
    for [q'] is a subsequence of what it returns for [q], and the filter
    does not throw for [q]. *)
Theorem longer_query_narrows {L : ToLowerCase}
    (q q' : string) (f : FormData.t) (l kept' : list Shelter) :
  ci_substring q q' ->
  filteredShelters q' f l = Ok kept' ->
  exists kept,
    filteredShelters q f l = Ok kept /\ subsequence kept' kept.
Proof.
  intros [a [b Hq]] H. apply filteredShelters_Ok in H as [Hc ->].
  exists (filter (matches q f) l). split.
  - rewrite filteredShelters_filter, Hc. reflexivity.
  - apply filter_narrower. intros s _. unfold matches, textMatch.
    rewrite !andb_true_iff, !orb_true_iff, Hq.
    intros [[[[Hn | Hn] Ht] Hr] Hl]; repeat split; auto;
      [left | right]; exact (includes_part _ _ _ _ Hn).
Qed.

Lemma longer_query_narrows_witness :
  exists kept,
    filteredShelters "IV" FormData.initial [oasis; haven; nameless] = Ok kept
    /\ subsequence [oasis] kept.
Proof.
  apply (longer_query_narrows "IV" "Kyiv" FormData.initial
           [oasis; haven; nameless] [oasis]).
  - exists "ky", "". reflexivity.
  - vm_compute. reflexivity.
Defined.

(** X4: a higher minimum rating narrows the result: when the Number value of
    the non-empty criterion [r'] is at least that of [r], whatever the filter
    returns for [r'] is a subsequence of what it returns for [r], the query
    and the other criteria being the same. *)
Theorem higher_minimum_narrows {L : ToLowerCase}
    (q ty r r' fp lo : string) (l kept' : list Shelter) :
  r' <> "" ->
  JsNumber.ge (StringToNumber r') (StringToNumber r) = true ->
  filteredShelters q (FormData.make ty r' fp lo) l = Ok kept' ->
  exists kept,
    filteredShelters q (FormData.make ty r fp lo) l = Ok kept
    /\ subsequence kept' kept.
Proof.
  intros Hr' Hge H. apply filteredShelters_Ok in H as [Hc ->].
  exists (filter (matches q (FormData.make ty r fp lo)) l). split.
  - rewrite filteredShelters_filter, Hc. reflexivity.
  - apply filter_narrower. intros s _. unfold matches.
    rewrite !andb_true_iff. intros [[[Hq Ht] Hr] Hl].
    repeat split; try assumption.
    unfold ratingMatch in *. cbn [FormData.rating] in *.
    apply is_empty_or in Hr. specialize (Hr Hr').
    apply orb_true_iff. right. unfold greaterEqual in *.
    exact (ge_trans _ _ _ Hr Hge).
Qed.

Lemma higher_minimum_narrows_witness :
  exists kept,
    filteredShelters "" (min_rating "1.5") [oasis; haven; nameless] = Ok kept
    /\ subsequence [oasis] kept.
Proof.
  apply (higher_minimum_narrows "" "" "1.5" "3" "" ""
           [oasis; haven; nameless] [oasis]).
  - discriminate.
  - vm_compute. reflexivity.
  - vm_compute. reflexivity.
Defined.

(** X5: searching and then refining is filtering once: the filter with the
    query alone, followed on its output by the filter with the criteria
    alone, gives what the filter gives with both, the thrown error
    included. *)
Theorem search_then_refine {L : ToLowerCase}
    (q : string) (f : FormData.t) (l : list Shelter) :
  bind (filteredShelters q FormData.initial l) (filteredShelters "" f)
  = filteredShelters q f l.
Proof.
  rewrite (filteredShelters_filter q FormData.initial l),
    (filteredShelters_filter q f l).
  destruct (forallb callable l) eqn:Hc; [| reflexivity].
  cbn [bind]. rewrite filteredShelters_filter, (forallb_filter _ _ _ Hc).
  rewrite filter_twice. f_equal. apply filter_ext. intros s.
  unfold matches, textMatch.
  rewrite toLowerCase_empty, !includes_empty.
  unfold typeMatch, ratingMatch, locationFilterMatch.
  cbn [FormData.initial FormData.shelter_type FormData.rating
       FormData.location is_empty String.eqb orb andb].
  rewrite !andb_true_r, !andb_assoc. reflexivity.
Qed.

(** X6: each shelter is judged on its own: filtering two lists put end to
    end gives the two results put end to end, and throws when either
    throws. *)
Theorem filteredShelters_app {L : ToLowerCase}
    (q : string) (f : FormData.t) (l1 l2 : list Shelter) :
  filteredShelters q f (l1 ++ l2)%list
  = bind (filteredShelters q f l1)
      (fun k1 =>
         bind (filteredShelters q f l2) (fun k2 => Ok (k1 ++ k2)%list)).
Proof.
  rewrite !filteredShelters_filter, forallb_app, filter_app.
  destruct (forallb callable l1); [| reflexivity].
  destruct (forallb callable l2); reflexivity.
Qed.

(** X7: for a shelter without a rating the minimum-rating criterion is void
    when its Number value is neither positive nor NaN (zero, a negative
    number, a blank string): the shelter is kept exactly when the query and
    the type and location criteria hold. *)
Theorem unrated_passes_nonpositive_minimum {L : ToLowerCase}
    (q : string) (f : FormData.t) (l kept : list Shelter) (s : Shelter) :
  filteredShelters q f l = Ok kept ->
  In s l ->
  unrated s ->
  JsNumber.isNaN (StringToNumber (FormData.rating f)) = false ->
  JsNumber.positive (StringToNumber (FormData.rating f)) = false ->
  In s kept
  <-> query_criterion q s
      /\ when_active (FormData.shelter_type f)
           (type_criterion (FormData.shelter_type f) s)
      /\ when_active (FormData.location f)
           (location_criterion (FormData.location f) s).
Proof.
  intros H Hin Hs Hn Hp. apply filteredShelters_Ok in H as [_ ->].
  rewrite filter_In, matches_iff. unfold satisfies.
  assert (Hr : rating_criterion (FormData.rating f) s).
  { unfold rating_criterion.
    replace (ToNumber (nullish (Details.rating (details_of s)) VNull))
      with zero by (destruct Hs as [-> | ->]; reflexivity).
    now apply zero_ge_true. }
  split.
  - intros [_ [Hq [Ht [_ Hl]]]]. auto.
  - intros [Hq [Ht Hl]]. split; [exact Hin |].
    split; [exact Hq |]. split; [exact Ht |]. split; [| exact Hl].
    intros _. exact Hr.
Qed.

Lemma unrated_passes_nonpositive_minimum_witness :
  In nameless [nameless]
  <-> query_criterion "ODESA" nameless
      /\ when_active (FormData.shelter_type (min_rating "-1"))
           (type_criterion (FormData.shelter_type (min_rating "-1")) nameless)
      /\ when_active (FormData.location (min_rating "-1"))
           (location_criterion (FormData.location (min_rating "-1"))
              nameless).
Proof.
  apply (unrated_passes_nonpositive_minimum "ODESA" (min_rating "-1")
           [oasis; nameless] [nameless] nameless).
  - vm_compute. reflexivity.
  - right; now left.
  - right; reflexivity.
  - vm_compute. reflexivity.
  - vm_compute. reflexivity.
Defined.

(** ** The page: fetch, effects and events *)

Lemma fetchShelters_frame (db : Backend) (st : PageState) :
  searchQuery (snd (fetchShelters db st)) = searchQuery st
  /\ formData (snd (fetchShelters db st)) = formData st
  /\ hydrated (snd (fetchShelters db st)) = hydrated st.
Proof.
  destruct (listing_cases db) as [[ps H] | [H | H]].
  - now rewrite (fetchShelters_listed db st ps H).
  - now rewrite (fetchShelters_no_data db st H).
  - now rewrite (fetchShelters_failed db st H).
Qed.

(** What holds in every state the page reaches: before the fetch completes
    nothing is loaded and the spinner is on; after it the spinner is off, the
    page was hydrated, and an error, which is the load message, comes with an
    empty list. *)
Lemma page_invariant (db : Backend) (st : PageState) :
  reachable db st ->
  (initialized st = false ->
   shelters st = [] /\ error st = None /\ loading st = true)
  /\ (initialized st = true ->
      hydrated st = true /\ loading st = false
      /\ (error st = None
          \/ (error st = Some load_failure /\ shelters st = []))).
Proof.
  induction 1 as [| st st' _ IH Hstep].
  - split; [auto | discriminate].
  - destruct Hstep as [st | st | st q | st name v]; simpl.
    + destruct IH as [IH0 IH1]. split; [exact IH0 |].
      intros Hi. destruct (IH1 Hi) as [_ H]. auto.
    + unfold fetchEffect.
      destruct (hydrated st && negb (initialized st)) eqn:Hg; [| exact IH].
      apply andb_true_iff in Hg as [Hh Hi]. apply negb_true_iff in Hi.
      destruct IH as [IH0 _]. destruct (IH0 Hi) as [Hs [He Hl]].
      destruct (fetchShelters_frame db st) as [_ [_ Hh']].
      destruct (fetchShelters_completes db st) as [_ [Hi' Hl']].
      split; [congruence |]. intros _.
      split; [congruence |]. split; [exact Hl' |].
      destruct (listing_cases db) as [[ps H] | [H | H]].
      * left. now rewrite (fetchShelters_listed db st ps H).
      * left. now rewrite (fetchShelters_no_data db st H).
      * right. rewrite (fetchShelters_failed db st H). simpl. auto.
    + exact IH.
    + exact IH.
Qed.

(** X8: fetchShelters never throws: whatever the backend answers and
    whatever state it starts from, it completes, with the loading flag off
    and the initialized flag on. *)
Theorem fetchShelters_always_completes (db : Backend) (st : PageState) :
  fst (fetchShelters db st) = Ok tt
  /\ loading (snd (fetchShelters db st)) = false
  /\ initialized (snd (fetchShelters db st)) = true.
Proof.
  destruct (fetchShelters_completes db st) as [H [Hi Hl]]. auto.
Qed.

(** X9: fetchShelters never touches the search query, the form or the
    hydrated flag, and when the listing fails it leaves the list of shelters
    as it found it. *)
Theorem fetchShelters_leaves_inputs (db : Backend) (st : PageState) :
  searchQuery (snd (fetchShelters db st)) = searchQuery st
  /\ formData (snd (fetchShelters db st)) = formData st
  /\ hydrated (snd (fetchShelters db st)) = hydrated st
  /\ (failed (profiles_query db) ->
      shelters (snd (fetchShelters db st)) = shelters st).
Proof.
  destruct (fetchShelters_frame db st) as [Hq [Hf Hh]].
  repeat split; try assumption.
  intros H. now rewrite (fetchShelters_failed db st H).
Qed.

(** X10: the fetch effect runs the fetch at most once: running the effect
    again, even against another backend, changes nothing. *)
Theorem fetchEffect_once (db db' : Backend) (st : PageState) :
  fetchEffect db' (fetchEffect db st) = fetchEffect db st.
Proof.
  unfold fetchEffect at 2 3.
  destruct (hydrated st && negb (initialized st)) eqn:Hg.
  - unfold fetchEffect.
    destruct (fetchShelters_completes db st) as [_ [Hi _]].
    now rewrite Hi, andb_false_r.
  - unfold fetchEffect. now rewrite Hg.
Qed.

(** X11: in every state the page reaches the loading flag is on exactly
    while the fetch has not completed. *)
Theorem loading_until_initialized (db : Backend) (st : PageState) :
  reachable db st -> loading st = negb (initialized st).
Proof.
  intros Hr. destruct (page_invariant db st Hr) as [H0 H1].
  destruct (initialized st).
  - now destruct (H1 eq_refl) as [_ [Hl _]].
  - now destruct (H0 eq_refl) as [_ [_ Hl]].
Qed.

Lemma loading_until_initialized_witness :
  loading (fetchEffect healthy_backend hydratedState)
  = negb (initialized (fetchEffect healthy_backend hydratedState)).
Proof.
  apply (loading_until_initialized healthy_backend).
  apply (reach_step _ hydratedState); [| apply step_fetch].
  apply (reach_step _ initialState); [apply reach_init | apply step_hydrate].
Defined.

Lemma error_excludes_shelters_aux (db : Backend) (st : PageState) :
  reachable db st ->
  error st <> None ->
  error st = Some load_failure
  /\ shelters st = []
  /\ initialized st = true.
Proof.
  intros Hr He. destruct (page_invariant db st Hr) as [H0 H1].
  destruct (initialized st).
  - destruct (H1 eq_refl) as [_ [_ [H | [H Hs]]]]; [contradiction | auto].
  - destruct (H0 eq_refl) as [_ [H _]]. contradiction.
Qed.

(** X12: in every state the page reaches, an error is the load message and
    comes with an empty list of shelters and a completed fetch. *)
Theorem error_excludes_shelters (db : Backend) (st : PageState) :
  reachable db st ->
  error st <> None ->
  error st = Some load_failure
  /\ shelters st = []
  /\ initialized st = true.
Proof. apply error_excludes_shelters_aux. Qed.

Lemma error_excludes_shelters_witness :
  error (fetchEffect down_backend hydratedState) = Some load_failure
  /\ shelters (fetchEffect down_backend hydratedState) = []
  /\ initialized (fetchEffect down_backend hydratedState) = true.
Proof.
  apply (error_excludes_shelters down_backend).
  - apply (reach_step _ hydratedState); [| apply step_fetch].
    apply (reach_step _ initialState);
      [apply reach_init | apply step_hydrate].
  - simpl. discriminate.
Defined.

(** X13: the fetch never happens before hydration: in every state the page
    reaches, a completed fetch implies the hydrated flag. *)
Theorem initialized_after_hydration (db : Backend) (st : PageState) :
  reachable db st -> initialized st = true -> hydrated st = true.
Proof.
  intros Hr Hi. destruct (page_invariant db st Hr) as [_ H1].
  now destruct (H1 Hi).
Qed.

Lemma initialized_after_hydration_witness :
  hydrated (fetchEffect empty_backend hydratedState) = true.
Proof.
  apply (initialized_after_hydration empty_backend).
  - apply (reach_step _ hydratedState); [| apply step_fetch].
    apply (reach_step _ initialState);
      [apply reach_init | apply step_hydrate].
  - reflexivity.
Defined.

(** X14: once the fetch has completed, no step of the page changes the list
    of shelters, the error, the loading flag or the initialized flag: there
    is no second fetch, after a failure either. *)
Theorem settled_after_fetch (db : Backend) (st st' : PageState) :
  step db st st' ->
  initialized st = true ->
  shelters st' = shelters st
  /\ error st' = error st
  /\ loading st' = loading st
  /\ initialized st' = true.
Proof.
  intros Hstep Hi.
  destruct Hstep as [st | st | st q | st name v]; simpl; auto.
  unfold fetchEffect. rewrite Hi, andb_false_r. auto.
Qed.

Lemma settled_after_fetch_witness :
  error (fetchEffect healthy_backend (fetchEffect down_backend hydratedState))
  = error (fetchEffect down_backend hydratedState).
Proof.
  apply (settled_after_fetch healthy_backend
           (fetchEffect down_backend hydratedState)
           (fetchEffect healthy_backend
              (fetchEffect down_backend hydratedState))).
  - apply step_fetch.
  - reflexivity.
Defined.

Lemma shelters_from_listing_aux (db : Backend) (st : PageState) :
  reachable db st ->
  shelters st = []
  \/ exists ps,
       profiles_query db = Resolved (Some ps) None
       /\ shelters st = map (withDetails db) ps.
Proof.
  induction 1 as [| st st' _ IH Hstep]; [now left |].
  destruct Hstep as [st | st | st q | st name v]; simpl; try exact IH.
  unfold fetchEffect. destruct (hydrated st && negb (initialized st));
    [| exact IH].
  destruct (listing_cases db) as [[ps H] | [H | H]].
  - right. exists ps. now rewrite (fetchShelters_listed db st ps H).
  - left. now rewrite (fetchShelters_no_data db st H).
  - now rewrite (fetchShelters_failed db st H).
Qed.

(** X15: in every state the page reaches, the list of shelters is empty or
    is the listing of the profile query with each profile enriched, in the
    order of the listing. *)
Theorem shelters_from_listing (db : Backend) (st : PageState) :
  reachable db st ->
  shelters st = []
  \/ exists ps,
       profiles_query db = Resolved (Some ps) None
       /\ shelters st = map (withDetails db) ps.
Proof. apply shelters_from_listing_aux. Qed.

Lemma shelters_from_listing_witness :
  shelters (fetchEffect rejecting_backend hydratedState) = []
  \/ exists ps,
       profiles_query rejecting_backend = Resolved (Some ps) None
       /\ shelters (fetchEffect rejecting_backend hydratedState)
          = map (withDetails rejecting_backend) ps.
Proof.
  apply (shelters_from_listing rejecting_backend).
  apply (reach_step _ hydratedState); [| apply step_fetch].
  apply (reach_step _ initialState); [apply reach_init | apply step_hydrate].
Defined.

(** X16: the callback of fetchShelters reads only the data of the detail and
    count lookups: two backends whose lookups for a profile reject alike and
    resolve with the same data give the same record, whatever errors the
    answers carry. *)
Theorem withDetails_ignores_errors (db db' : Backend) (p : Profile) :
  data_of (shelter_details_query db (id p))
  = data_of (shelter_details_query db' (id p)) ->
  data_of (animals_query db (id p)) = data_of (animals_query db' (id p)) ->
  withDetails db p = withDetails db' p.
Proof.
  unfold withDetails, data_of.
  destruct (shelter_details_query db (id p)) as [e1 | d1 err1],
    (shelter_details_query db' (id p)) as [e2 | d2 err2];
    try discriminate; intros Hd; [| injection Hd as ->];
    destruct (animals_query db (id p)) as [e3 | r3 err3],
      (animals_query db' (id p)) as [e4 | r4 err4];
    try discriminate; intros Hr; try (injection Hr as ->); reflexivity.
Qed.

Lemma withDetails_ignores_errors_witness :
  withDetails healthy_backend (sample_profile "Oasis")
  = withDetails noisy_backend (sample_profile "Oasis").
Proof.
  apply (withDetails_ignores_errors healthy_backend noisy_backend
           (sample_profile "Oasis")); reflexivity.
Defined.

(** X17: [handleChange] keeps the last value written to a field: a second
    change of the same select replaces the first. *)
Theorem handleChange_last_wins (name v v' : string) (f : FormData.t) :
  handleChange name v' (handleChange name v f) = handleChange name v' f.
Proof.
  unfold handleChange.
  destruct (String.eqb name "shelter_type"); [reflexivity |].
  destruct (String.eqb name "rating"); [reflexivity |].
  destruct (String.eqb name "free_places"); [reflexivity |].
  destruct (String.eqb name "location"); reflexivity.
Qed.

(** X18: changes of two different selects commute. *)
Theorem handleChange_commutes (n m v w : string) (f : FormData.t) :
  n <> m ->
  handleChange n v (handleChange m w f) = handleChange m w (handleChange n v f).
Proof.
  intros Hnm. unfold handleChange.
  destruct (String.eqb_spec n "shelter_type") as [-> |];
    destruct (String.eqb_spec m "shelter_type") as [-> |];
    try congruence;
    try (destruct (String.eqb_spec n "rating") as [-> |]);
    try (destruct (String.eqb_spec m "rating") as [-> |]);
    try congruence;
    try (destruct (String.eqb_spec n "free_places") as [-> |]);
    try (destruct (String.eqb_spec m "free_places") as [-> |]);
    try congruence;
    try (destruct (String.eqb_spec n "location") as [-> |]);
    try (destruct (String.eqb_spec m "location") as [-> |]);
    try congruence; reflexivity.
Qed.

Lemma handleChange_commutes_witness :
  handleChange "rating" "3" (handleChange "location" "Kyiv" FormData.initial)
  = handleChange "location" "Kyiv"
      (handleChange "rating" "3" FormData.initial).
Proof.
  apply (handleChange_commutes "rating" "location" "3" "Kyiv"
           FormData.initial).
  discriminate.
Defined.

(** X19: choosing a value in the [free_places] select never changes the
    displayed list. *)
Theorem free_places_select_keeps_display {L : ToLowerCase} (v : string) (st : PageState) :
  displayed (setFormData (handleChange "free_places" v) st) = displayed st.
Proof.
  unfold displayed. destruct st as [sh lo er sq ini hy fd]. simpl.
  destruct fd as [ty ra fp loc]. reflexivity.
Qed.

(** ** The render *)

Lemma withDetails_callable (db : Backend) (p : Profile) :
  (forall d err,
     shelter_details_query db (id p) = Resolved (Some d) err ->
     text_or_missing (Details.shelter_name d) = true
     /\ text_or_missing (Details.location d) = true) ->
  text_or_missing (full_name p) = true ->
  text_or_missing (address p) = true ->
  callable (withDetails db p) = true.
Proof.
  intros Hd Hn Ha.
  assert (Hdef : callable (mkShelter p (Some (defaultDetails p)) 0) = true).
  { unfold callable, details_of. cbn.
    rewrite (text_or_missing_lowerable _ Hn). cbn [andb].
    apply text_or_missing_lowerable. unfold or_else.
    destruct (ToBoolean (address p)); [exact Ha | reflexivity]. }
  assert (Hdef' : forall n,
            callable (mkShelter p (Some (defaultDetails p)) n) = true)
    by (intros n; exact Hdef).
  unfold withDetails.
  destruct (shelter_details_query db (id p)) as [e | [d|] err] eqn:Hq;
    cbn [await bind fst]; try exact Hdef.
  - destruct (animals_query db (id p)) as [e | rows err'];
      cbn [await bind fst]; try exact Hdef.
    destruct (Hd d err eq_refl) as [H1 H2].
    unfold callable, details_of. cbn.
    now rewrite (text_or_missing_lowerable _ H1),
      (text_or_missing_lowerable _ H2).
  - destruct (animals_query db (id p)) as [e | rows err'];
      cbn [await bind fst]; [exact Hdef | apply Hdef'].
Qed.

(** X20: until the fetch has completed the page renders the spinner and no
    error banner, and the render cannot fail. *)
Theorem render_before_fetch {L : ToLowerCase} (db : Backend) (st : PageState) :
  reachable db st ->
  initialized st = false ->
  render st = Ok (mkView None Spinner).
Proof.
  intros Hr Hi. destruct (page_invariant db st Hr) as [H0 _].
  destruct (H0 Hi) as [Hs [He Hl]].
  unfold render, displayed. now rewrite Hs, He, Hl.
Qed.

Lemma render_before_fetch_witness :
  render (setSearchQuery "kyiv" hydratedState) = Ok (mkView None Spinner).
Proof.
  apply (render_before_fetch healthy_backend).
  - apply (reach_step _ hydratedState); [| apply step_search].
    apply (reach_step _ initialState);
      [apply reach_init | apply step_hydrate].
  - reflexivity.
Defined.

(** X21: the error banner is never rendered beside cards or the spinner: in
    every state the page reaches, a render with a banner shows the load
    message and the nothing-found message. *)
Theorem render_banner_alone {L : ToLowerCase} (db : Backend) (st : PageState) (v : View) :
  reachable db st ->
  render st = Ok v ->
  banner v <> None ->
  banner v = Some load_failure /\ body v = NothingFound.
Proof.
  intros Hr Hv Hb.
  assert (He : error st <> None).
  { intros He. unfold render in Hv.
    destruct (displayed st); [| discriminate]. cbn [bind] in Hv.
    injection Hv as <-. rewrite He in Hb. now apply Hb. }
  destruct (error_excludes_shelters_aux db st Hr He) as [He' [Hs Hi]].
  destruct (page_invariant db st Hr) as [_ H1].
  destruct (H1 Hi) as [_ [Hl _]].
  unfold render, displayed in Hv. rewrite Hs, He', Hl in Hv.
  cbn in Hv. injection Hv as <-. auto.
Qed.

Lemma render_banner_alone_witness :
  banner (mkView (Some load_failure) NothingFound) = Some load_failure
  /\ body (mkView (Some load_failure) NothingFound) = NothingFound.
Proof.
  apply (render_banner_alone down_backend
           (fetchEffect down_backend hydratedState)).
  - apply (reach_step _ hydratedState); [| apply step_fetch].
    apply (reach_step _ initialState);
      [apply reach_init | apply step_hydrate].
  - vm_compute. reflexivity.
  - discriminate.
Defined.

(** X22: when every name and place the backend returns is text or missing,
    the render never fails, in any state the page reaches: the records that
    fetchShelters builds, the defaulted ones included, go through the
    filter without a type error. *)
Theorem render_never_fails {L : ToLowerCase} (db : Backend) (st : PageState) :
  text_backend db ->
  reachable db st ->
  exists v, render st = Ok v.
Proof.
  intros [Hp Hd] Hr.
  assert (Hc : forallb callable (shelters st) = true).
  { destruct (shelters_from_listing_aux db st Hr) as [-> | [ps [Hq ->]]];
      [reflexivity |].
    apply forallb_forall. intros s Hs.
    apply in_map_iff in Hs as [p [<- Hin]].
    destruct (Hp ps None p Hq Hin) as [Hn Ha].
    apply withDetails_callable; [| exact Hn | exact Ha].
    intros d err. apply Hd. }
  unfold render, displayed. rewrite filteredShelters_filter, Hc.
  cbn [bind]. eexists. reflexivity.
Qed.

Lemma render_never_fails_witness :
  exists v, render (fetchEffect healthy_backend hydratedState) = Ok v.
Proof.
  apply (render_never_fails healthy_backend).
  - split.
    + intros ps err p H Hin. injection H as <- _.
      destruct Hin as [<- | [<- | []]]; split; reflexivity.
    + intros pid d err H. injection H as <- _. split; reflexivity.
  - apply (reach_step _ hydratedState); [| apply step_fetch].
    apply (reach_step _ initialState);
      [apply reach_init | apply step_hydrate].
Defined.
